(** * FinchAnalytics-RAG: the valuation engine and its request handler

    A shallow embedding of

      - [backend/services/valuation_engine.py] (class [ValuationEngine]) and
      - [backend/routers/valuation.py] (the loop of [perform_valuation],
        [perform_single_valuation], [generate_recommendation],
        [identify_risk_factors], and the endpoint as a whole, with
        [extract_financial_metrics]),
      - [backend/services/retriever.py] ([_calculate_market_volatility]),

    followed by the properties the specification states about them.

    Conventions of the embedding.

      - A Python [dict] with string keys is a [gmap string pyval];
        [d.get(k, dflt)] is [dict_get d k dflt].
      - The values found in the dictionaries are [None], [bool], [int],
        [float] and [str] ([pyval]).  Python's numbers are idealised as exact
        rationals ([Q]): rounding, overflow, infinities and NaN of binary64
        are outside the model.  Arithmetic and ordering on a value that is
        not a number raise [TypeError], as does Python for [None]; for a
        [str] operand every expression of the engine ends in [TypeError] too.
      - A Python function that may raise returns [result A]; the [try] blocks
        of the valuators only log and re-raise, so they are transparent.
      - [async]/[await] is sequential here: each valuator is awaited before
        the next one starts. *)

From Stdlib Require Import ZArith QArith Qabs Qpower Lqa Lia List String.
From stdpp Require Import base option list gmap strings.
Import ListNotations.

Local Open Scope string_scope.
Local Open Scope list_scope.
Local Open Scope Z_scope.
Local Open Scope Q_scope.

(** ** Python values and exceptions *)

Inductive pyval : Type :=
| VNone
| VBool (b : bool)
| VInt (n : Z)
| VFloat (q : Q)
| VStr (s : string).

(** The exception classes the modelled code can raise.  [ValueError] is the
    only one raised by an explicit [raise] statement; the others come from
    the interpreter. *)
Inductive exn : Type :=
| TypeError
| ValueError (msg : string)
| ZeroDivisionError
| IndexError.

Inductive result (A : Type) : Type :=
| Ok (a : A)
| Raise (e : exn).

Arguments Ok {A} a.
Arguments Raise {A} e.

#[global] Instance result_ret : MRet result := fun A a => Ok a.

#[global] Instance result_bind : MBind result := fun A B k r =>
  match r with
  | Ok a => k a
  | Raise e => Raise e
  end.

Definition is_ok {A : Type} (r : result A) : bool :=
  match r with Ok _ => true | Raise _ => false end.

(** [[f(x) for x in l]], stopping at the first exception. *)
Fixpoint py_map {A B : Type} (f : A -> result B) (l : list A) : result (list B) :=
  match l with
  | [] => Ok []
  | x :: l' => y ← f x; ys ← py_map f l'; Ok (y :: ys)
  end.

(** [d.get(k, dflt)] *)
Definition dict_get (d : gmap string pyval) (k : string) (dflt : pyval) : pyval :=
  default dflt (d !! k).

(** The numeric value of an operand: [bool] is a subclass of [int]. *)
Definition num (v : pyval) : result Q :=
  match v with
  | VBool b => Ok (inject_Z (Z.b2z b))
  | VInt n => Ok (inject_Z n)
  | VFloat q => Ok q
  | VNone | VStr _ => Raise TypeError
  end.

(** An operand accepted where Python wants an integer ([range]). *)
Definition as_int (v : pyval) : result Z :=
  match v with
  | VBool b => Ok (Z.b2z b)
  | VInt n => Ok n
  | VNone | VFloat _ | VStr _ => Raise TypeError
  end.

(** Truth value testing: [bool(v)]. *)
Definition truthy (v : pyval) : bool :=
  match v with
  | VNone => false
  | VBool b => b
  | VInt n => negb (n =? 0)%Z
  | VFloat q => negb (Qeq_bool q 0)
  | VStr s => negb (String.eqb s "")
  end.

(** [a / b] on numbers. *)
Definition py_div (a b : Q) : result Q :=
  if Qeq_bool b 0 then Raise ZeroDivisionError else Ok (a / b).

Definition Qltb (a b : Q) : bool := negb (Qle_bool b a).

(** [sum(l)] *)
Definition py_sum (l : list Q) : Q := fold_left Qplus l 0.

(** [l[-1]] *)
Definition py_last (l : list Q) : result Q :=
  match last l with
  | Some x => Ok x
  | None => Raise IndexError
  end.

(** ** models/schemas.py *)

Inductive ValuationMethod : Type := DCF | PEG | PE | COMPARATIVE.

(** The values stored in [calculation_details]. *)
Inductive detail : Type :=
| DVal (v : pyval)
| DNum (q : Q)
| DList (l : list Q).

Record ValuationResult : Type := {
  method : ValuationMethod;
  estimated_value : Q;
  confidence_interval : Q * Q;
  assumptions : list (string * detail);
  calculation_details : list (string * detail)
}.

(** [FinancialMetrics]: the two [float] fields always hold a number, the
    [Optional[float]] ones a number or [None]. *)
Record FinancialMetrics : Type := {
  current_price : Q;
  market_cap : Q;
  pe_ratio : option Q;
  peg_ratio : option Q;
  price_to_book : option Q;
  debt_to_equity : option Q;
  revenue_growth : option Q;
  earnings_growth : option Q;
  free_cash_flow : option Q
}.

(** ** services/valuation_engine.py: numeric primitives *)

(** [_project_cash_flows(initial_fcf, growth_rate, years)] *)
Definition _project_cash_flows (initial_fcf growth_rate years : pyval)
  : result (list Q) :=
  n ← as_int years;
  py_map (fun year : Z =>
            g ← num growth_rate;
            f ← num initial_fcf;
            Ok (f * (1 + g) ^ year))
         (seqZ 1 n).

(** [_calculate_terminal_value(final_fcf, terminal_growth, discount_rate)] *)
Definition _calculate_terminal_value (final_fcf : Q) (terminal_growth discount_rate : pyval)
  : result Q :=
  tg ← num terminal_growth;
  dr ← num discount_rate;
  py_div (final_fcf * (1 + tg)) (dr - tg).

(** [_discount_cash_flows(cash_flows, discount_rate)]; [i] is the index that
    [enumerate] hands out. *)
Fixpoint discount_from (i : Z) (cash_flows : list Q) (discount_rate : pyval)
  : result (list Q) :=
  match cash_flows with
  | [] => Ok []
  | cf :: rest =>
      dr ← num discount_rate;
      pv ← py_div cf ((1 + dr) ^ (i + 1));
      pvs ← discount_from (i + 1) rest discount_rate;
      Ok (pv :: pvs)
  end.

Definition _discount_cash_flows (cash_flows : list Q) (discount_rate : pyval)
  : result (list Q) :=
  discount_from 0 cash_flows discount_rate.

(** [_calculate_dcf_confidence_interval(estimated_value, growth_rate, discount_rate)];
    the two uncertainty constants of the source are assigned and never read. *)
Definition _calculate_dcf_confidence_interval
  (estimated_value : Q) (growth_rate discount_rate : pyval) : Q * Q :=
  let lower_bound := estimated_value * 0.8 in
  let upper_bound := estimated_value * 1.2 in
  (lower_bound, upper_bound).

(** [_calculate_peg_confidence_interval(estimated_value, peg_ratio)] *)
Definition _calculate_peg_confidence_interval (estimated_value peg_ratio : Q) : Q * Q :=
  let peg_deviation := Qabs (peg_ratio - 1.0) in
  let confidence_range :=
    if Qltb peg_deviation 0.2 then 0.1
    else if Qltb peg_deviation 0.5 then 0.2
    else 0.3 in
  (estimated_value * (1 - confidence_range),
   estimated_value * (1 + confidence_range)).

(** [_calculate_pe_confidence_interval(estimated_value, current_pe, industry_pe)] *)
Definition _calculate_pe_confidence_interval
  (estimated_value current_pe industry_pe : Q) : result (Q * Q) :=
  pe_deviation ← py_div (Qabs (current_pe - industry_pe)) industry_pe;
  let confidence_range :=
    if Qltb pe_deviation 0.1 then 0.1
    else if Qltb pe_deviation 0.3 then 0.2
    else 0.3 in
  Ok (estimated_value * (1 - confidence_range),
      estimated_value * (1 + confidence_range)).

(** The literal dictionary of [_get_industry_pe_ratio]. *)
Definition industry_pe_ratios : gmap string Q :=
  list_to_map
    [ ("Technology", 25.0); ("Healthcare", 20.0); ("Finance", 15.0);
      ("Energy", 12.0); ("Consumer Cyclical", 18.0);
      ("Consumer Defensive", 16.0); ("Industrials", 17.0);
      ("Basic Materials", 14.0); ("Real Estate", 22.0);
      ("Communication Services", 23.0); ("Utilities", 19.0) ].

(** [_get_industry_pe_ratio(sector)]: a key that is not a string is never
    found among the string keys. *)
Definition _get_industry_pe_ratio (sector : pyval) : Q :=
  match sector with
  | VStr s => default 18.0 (industry_pe_ratios !! s)
  | _ => 18.0
  end.

(** ** services/valuation_engine.py: the four valuators *)

(** [assumptions.get(k, dflt) if assumptions else dflt], where [assumptions]
    is [None] or a dictionary (an empty dictionary is false). *)
Definition assumption (assumptions : option (gmap string pyval))
  (k : string) (dflt : pyval) : pyval :=
  match assumptions with
  | Some a => if decide (a = ∅) then dflt else dict_get a k dflt
  | None => dflt
  end.

(** [dcf_valuation(stock_data, market_context, assumptions)].  Where
    [(1 + discount_rate) ** projection_years] is computed, [range] has
    accepted [projection_years], so it is an integer, and the list has a last
    element, so it is positive. *)
Definition dcf_valuation (stock_data market_context : gmap string pyval)
  (assumptions : option (gmap string pyval)) : result ValuationResult :=
  let free_cash_flow := dict_get stock_data "free_cash_flow" (VInt 0) in
  let current_price := dict_get stock_data "current_price" (VInt 0) in
  let growth_rate := assumption assumptions "growth_rate" (VFloat 0.05) in
  let discount_rate := assumption assumptions "discount_rate" (VFloat 0.10) in
  let terminal_growth := assumption assumptions "terminal_growth" (VFloat 0.02) in
  let projection_years := assumption assumptions "projection_years" (VInt 5) in
  projected_cash_flows ←
    _project_cash_flows free_cash_flow growth_rate projection_years;
  final_fcf ← py_last projected_cash_flows;
  terminal_value ←
    _calculate_terminal_value final_fcf terminal_growth discount_rate;
  present_value_cash_flows ←
    _discount_cash_flows projected_cash_flows discount_rate;
  dr ← num discount_rate;
  years ← as_int projection_years;
  present_value_terminal ← py_div terminal_value ((1 + dr) ^ years);
  let enterprise_value := py_sum present_value_cash_flows + present_value_terminal in
  debt ← num (dict_get stock_data "total_debt" (VInt 0));
  cash ← num (dict_get stock_data "total_cash" (VInt 0));
  let equity_value := enterprise_value - debt + cash in
  shares_outstanding ← num (dict_get stock_data "shares_outstanding" (VInt 1));
  let estimated_value :=
    if Qltb 0 shares_outstanding then equity_value / shares_outstanding
    else equity_value in
  let confidence_interval :=
    _calculate_dcf_confidence_interval estimated_value growth_rate discount_rate in
  Ok (Build_ValuationResult DCF estimated_value confidence_interval
        [ ("growth_rate", DVal growth_rate);
          ("discount_rate", DVal discount_rate);
          ("terminal_growth", DVal terminal_growth);
          ("projection_years", DVal projection_years) ]
        [ ("free_cash_flow", DVal free_cash_flow);
          ("enterprise_value", DNum enterprise_value);
          ("equity_value", DNum equity_value);
          ("projected_cash_flows", DList projected_cash_flows);
          ("terminal_value", DNum terminal_value) ]).

Definition peg_error : string :=
  "P/E ratio and earnings growth rate required for PEG valuation".

(** [peg_valuation(stock_data, market_context, assumptions)].  The second
    argument of [stock_data.get('eps', current_price / pe_ratio)] is
    evaluated before the lookup, whether or not the key is there. *)
Definition peg_valuation (stock_data market_context : gmap string pyval)
  (assumptions : option (gmap string pyval)) : result ValuationResult :=
  let pe_ratio := dict_get stock_data "pe_ratio" VNone in
  let earnings_growth := dict_get stock_data "earnings_growth" VNone in
  let current_price := dict_get stock_data "current_price" (VInt 0) in
  if negb (truthy pe_ratio) || negb (truthy earnings_growth)
  then Raise (ValueError peg_error)
  else
    eg ← num earnings_growth;
    pe ← num pe_ratio;
    peg_ratio ← py_div pe (eg * 100);
    let fair_pe_ratio := eg * 100 in
    price ← num current_price;
    derived_eps ← py_div price pe;
    eps ← num (dict_get stock_data "eps" (VFloat derived_eps));
    let estimated_value := fair_pe_ratio * eps in
    let confidence_interval :=
      _calculate_peg_confidence_interval estimated_value peg_ratio in
    Ok (Build_ValuationResult PEG estimated_value confidence_interval
          [ ("fair_peg_ratio", DNum 1.0);
            ("growth_rate", DVal earnings_growth) ]
          [ ("peg_ratio", DNum peg_ratio);
            ("pe_ratio", DVal pe_ratio);
            ("earnings_growth", DVal earnings_growth);
            ("fair_pe_ratio", DNum fair_pe_ratio) ]).

Definition pe_error : string :=
  "P/E ratio and EPS required for P/E valuation".

(** [pe_valuation(stock_data, market_context, assumptions)]; the default of
    [eps], [current_price / current_pe if current_pe else 0], is evaluated
    before the lookup. *)
Definition pe_valuation (stock_data market_context : gmap string pyval)
  (assumptions : option (gmap string pyval)) : result ValuationResult :=
  let current_pe := dict_get stock_data "pe_ratio" VNone in
  let current_price := dict_get stock_data "current_price" (VInt 0) in
  derived_eps ←
    (if truthy current_pe
     then price ← num current_price;
          pe ← num current_pe;
          q ← py_div price pe;
          Ok (VFloat q)
     else Ok (VInt 0));
  let eps := dict_get stock_data "eps" derived_eps in
  if negb (truthy current_pe) || negb (truthy eps)
  then Raise (ValueError pe_error)
  else
    let industry_pe :=
      _get_industry_pe_ratio (dict_get stock_data "sector" (VStr "")) in
    e ← num eps;
    let estimated_value := industry_pe * e in
    pe ← num current_pe;
    confidence_interval ←
      _calculate_pe_confidence_interval estimated_value pe industry_pe;
    Ok (Build_ValuationResult PE estimated_value confidence_interval
          [ ("industry_pe_ratio", DNum industry_pe);
            ("valuation_method", DVal (VStr "industry_comparison")) ]
          [ ("current_pe", DVal current_pe);
            ("industry_pe", DNum industry_pe);
            ("eps", DVal eps);
            ("pe_difference", DNum (pe - industry_pe)) ]).

(** [comparative_valuation(stock_data, market_context, assumptions)] *)
Definition comparative_valuation (stock_data market_context : gmap string pyval)
  (assumptions : option (gmap string pyval)) : result ValuationResult :=
  price ← num (dict_get stock_data "current_price" (VInt 0));
  let estimated_value := price * 1.1 in
  Ok (Build_ValuationResult COMPARATIVE estimated_value
        (estimated_value * 0.8, estimated_value * 1.2)
        [ ("peer_comparison", DVal (VBool true));
          ("sector_average", DVal (VBool true)) ]
        [ ("method", DVal (VStr "placeholder"));
          ("note", DVal (VStr "Comparative valuation not yet implemented")) ]).

(** ** routers/valuation.py *)

(** [perform_single_valuation(method, stock_data, market_context, assumptions)];
    the four members of the enumeration leave nothing for the last [else]. *)
Definition perform_single_valuation (method : ValuationMethod)
  (stock_data market_context : gmap string pyval)
  (assumptions : option (gmap string pyval)) : result ValuationResult :=
  match method with
  | DCF => dcf_valuation stock_data market_context assumptions
  | PEG => peg_valuation stock_data market_context assumptions
  | PE => pe_valuation stock_data market_context assumptions
  | COMPARATIVE => comparative_valuation stock_data market_context assumptions
  end.

(** One iteration of the loop of [perform_valuation]: the [try] appends the
    outcome, the [except Exception] logs a warning and goes on. *)
Definition valuation_step (stock_data market_context : gmap string pyval)
  (assumptions : option (gmap string pyval))
  (valuations : list ValuationResult) (method : ValuationMethod)
  : list ValuationResult :=
  match perform_single_valuation method stock_data market_context assumptions with
  | Ok valuation_result => valuations ++ [valuation_result]
  | Raise _ => valuations
  end.

(** The loop [for method in request.valuation_methods] of [perform_valuation],
    started on [valuations = []]. *)
Definition perform_valuations (valuation_methods : list ValuationMethod)
  (stock_data market_context : gmap string pyval)
  (assumptions : option (gmap string pyval)) : list ValuationResult :=
  fold_left (valuation_step stock_data market_context assumptions)
            valuation_methods [].

Definition insufficient_data : string := "Insufficient data for recommendation".
Definition strong_buy : string :=
  "Strong Buy - Multiple valuation methods suggest significant upside".
Definition buy : string := "Buy - Valuation suggests moderate upside potential".
Definition sell : string := "Sell - Valuation suggests significant downside risk".
Definition hold_slight_downside : string :=
  "Hold - Valuation suggests slight downside risk".
Definition hold_fair_value : string :=
  "Hold - Valuation is approximately fair value".

(** [generate_recommendation(valuations, metrics)] *)
Definition generate_recommendation (valuations : list ValuationResult)
  (metrics : FinancialMetrics) : result string :=
  match valuations with
  | [] => Ok insufficient_data
  | _ =>
      avg_value ← py_div (py_sum (map estimated_value valuations))
                         (inject_Z (Z.of_nat (length valuations)));
      let current_price := current_price metrics in
      if Qltb (current_price * 1.2) avg_value then Ok strong_buy
      else if Qltb (current_price * 1.05) avg_value then Ok buy
      else if Qltb avg_value (current_price * 0.8) then Ok sell
      else if Qltb avg_value (current_price * 0.95) then Ok hold_slight_downside
      else Ok hold_fair_value
  end.

(** [a > b] with a dictionary value on the left. *)
Definition py_gt (a : pyval) (b : Q) : result bool :=
  x ← num a; Ok (Qltb b x).

Definition high_debt : string := "High debt-to-equity ratio".
Definition high_pe : string := "High P/E ratio may indicate overvaluation".
Definition high_volatility : string := "High market volatility".
Definition no_risk : string := "No significant risk factors identified".

(** [identify_risk_factors(stock_data, market_context)] *)
Definition identify_risk_factors (stock_data market_context : gmap string pyval)
  : result (list string) :=
  let risk_factors : list string := [] in
  c1 ← py_gt (dict_get stock_data "debt_to_equity" (VInt 0)) 1.0;
  let risk_factors := if (c1 : bool) then risk_factors ++ [high_debt] else risk_factors in
  c2 ← py_gt (dict_get stock_data "pe_ratio" (VInt 0)) 30;
  let risk_factors := if (c2 : bool) then risk_factors ++ [high_pe] else risk_factors in
  c3 ← py_gt (dict_get market_context "market_volatility" (VInt 0)) 0.3;
  let risk_factors := if (c3 : bool) then risk_factors ++ [high_volatility] else risk_factors in
  Ok (match risk_factors with [] => [no_risk] | _ => risk_factors end).

(** ** services/retriever.py: the volatility put into the market context *)

(** The loop of [_calculate_market_volatility]: an index whose
    [change_percent] is false ([None], missing, zero) is passed over, the
    absolute value of any other is appended. *)
Fixpoint collect_changes (index_values : list (gmap string pyval))
  (changes : list Q) : result (list Q) :=
  match index_values with
  | [] => Ok changes
  | index_data :: rest =>
      if truthy (dict_get index_data "change_percent" VNone)
      then x ← num (dict_get index_data "change_percent" VNone);
           collect_changes rest (changes ++ [Qabs x])
      else collect_changes rest changes
  end.

(** [_calculate_market_volatility(market_indices)], on the list
    [market_indices.values()]; the [except Exception] answers [0.0]. *)
Definition _calculate_market_volatility (index_values : list (gmap string pyval)) : Q :=
  match
    changes ← collect_changes index_values [];
    match changes with
    | [] => Ok 0.0
    | _ => py_div (py_sum changes) (inject_Z (Z.of_nat (length changes)))
    end
  with
  | Ok volatility => volatility
  | Raise _ => 0.0
  end.

(** ** routers/valuation.py: the endpoint *)

(** [ValuationRequest], once pydantic has accepted it: the methods are
    members of the enumeration. *)
Module ValuationRequest.
Record t : Type := {
  stock_symbol : string;
  valuation_methods : list ValuationMethod;
  assumptions : option (gmap string pyval)
}.
End ValuationRequest.

(** [ValuationResponse], without the [timestamp] that defaults to the time of
    the call. *)
Module ValuationResponse.
Record t : Type := {
  stock_symbol : string;
  current_price : Q;
  financial_metrics : FinancialMetrics;
  valuations : list ValuationResult;
  recommendation : string;
  risk_factors : list string
}.
End ValuationResponse.

(** What the endpoint answers: the response model, or an [HTTPException]. *)
Inductive http_result : Type :=
| Response (r : ValuationResponse.t)
| HTTPException (status_code : Z).

Section Endpoint.

(** The validation that pydantic applies to a field declared [float]; it
    belongs to the library, not to this repository. *)
Variable validate_float : pyval -> option Q.

(** A field declared [Optional[float]] accepts [None] as well. *)
Definition validate_optional_float (v : pyval) : option (option Q) :=
  match v with
  | VNone => Some None
  | _ => q ← validate_float v; Some (Some q)
  end.

(** [extract_financial_metrics(stock_data)]; [None] stands for pydantic's
    [ValidationError]. *)
Definition extract_financial_metrics (stock_data : gmap string pyval)
  : option FinancialMetrics :=
  current_price ← validate_float (dict_get stock_data "current_price" (VFloat 0.0));
  market_cap ← validate_float (dict_get stock_data "market_cap" (VFloat 0.0));
  pe_ratio ← validate_optional_float (dict_get stock_data "pe_ratio" VNone);
  peg_ratio ← validate_optional_float (dict_get stock_data "peg_ratio" VNone);
  price_to_book ← validate_optional_float (dict_get stock_data "price_to_book" VNone);
  debt_to_equity ← validate_optional_float (dict_get stock_data "debt_to_equity" VNone);
  revenue_growth ← validate_optional_float (dict_get stock_data "revenue_growth" VNone);
  earnings_growth ← validate_optional_float (dict_get stock_data "earnings_growth" VNone);
  free_cash_flow ← validate_optional_float (dict_get stock_data "free_cash_flow" VNone);
  Some (Build_FinancialMetrics current_price market_cap pe_ratio peg_ratio
          price_to_book debt_to_equity revenue_growth earnings_growth
          free_cash_flow).

(** [perform_valuation(request)], given what the two calls of the retriever
    returned: [stock_data] is [None] when the retriever failed.  An
    [HTTPException] raised inside the [try] is re-raised, every other
    exception becomes a 500. *)
Definition perform_valuation (request : ValuationRequest.t)
  (stock_data : option (gmap string pyval))
  (market_context : gmap string pyval) : http_result :=
  match stock_data with
  | None => HTTPException 404
  | Some stock_data =>
      if decide (stock_data = ∅) then HTTPException 404
      else
        match extract_financial_metrics stock_data with
        | None => HTTPException 500
        | Some financial_metrics =>
            let valuations :=
              perform_valuations (ValuationRequest.valuation_methods request)
                stock_data market_context
                (ValuationRequest.assumptions request) in
            match generate_recommendation valuations financial_metrics with
            | Raise _ => HTTPException 500
            | Ok recommendation =>
                match identify_risk_factors stock_data market_context with
                | Raise _ => HTTPException 500
                | Ok risk_factors =>
                    Response
                      (ValuationResponse.Build_t
                         (ValuationRequest.stock_symbol request)
                         (current_price financial_metrics)
                         financial_metrics valuations recommendation
                         risk_factors)
                end
            end
        end
  end.

End Endpoint.

(** * Definitions used by the statements *)

(** ** The rules as the specification words them *)

(** What the loop keeps of one valuator call: its outcome, if it returned. *)
Definition outcome_of (r : result ValuationResult) : option ValuationResult :=
  match r with
  | Ok v => Some v
  | Raise _ => None
  end.





(** The rules of the specification, in the order of their declaration. *)
Definition spec_risk_flags (debt_to_equity pe_ratio volatility : Q) : list string :=
  (if Qlt_le_dec 1.0 debt_to_equity then [high_debt] else [])
  ++ (if Qlt_le_dec 30 pe_ratio then [high_pe] else [])
  ++ (if Qlt_le_dec 0.3 volatility then [high_volatility] else []).


(** The field [k] is present and holds a number equal to zero. *)
Definition zero_field (d : gmap string pyval) (k : string) : Prop :=
  exists v q, d !! k = Some v /\ num v = Ok q /\ q == 0.

(** A value that arithmetic accepts. *)
Definition number (v : pyval) : Prop := is_ok (num v) = true.

(** The enterprise value that the default assumptions (5% growth over five
    years, 10% discount, 2% terminal growth) give to a free cash flow of 1:
    about 14.46. *)
Definition default_dcf_multiple : Q := 27102705 # 1874048.

(** [details.get(k)] on the audit trail of an outcome. *)
Fixpoint detail_of (k : string) (details : list (string * detail)) : option detail :=
  match details with
  | [] => None
  | (k', d) :: rest => if String.eqb k k' then Some d else detail_of k rest
  end.

(** ** Snapshots and outcomes used as examples *)

(** A snapshot without [earnings_growth]. *)
Definition example_snapshot : gmap string pyval :=
  list_to_map [ ("free_cash_flow", VFloat 100); ("current_price", VFloat 100);
                ("pe_ratio", VFloat 15) ].


(** A company with a negative free cash flow. *)
Definition negative_fcf_snapshot : gmap string pyval :=
  list_to_map [ ("free_cash_flow", VFloat (-100)); ("current_price", VFloat 100) ].

(** A snapshot for the PEG valuator, priced at 100. *)
Definition peg_snapshot (pe_ratio earnings_growth : Q) : gmap string pyval :=
  list_to_map [ ("current_price", VFloat 100); ("pe_ratio", VFloat pe_ratio);
                ("earnings_growth", VFloat earnings_growth) ].

(** The snapshot the retriever builds for a company for which the data
    source reports no debt-to-equity ratio: the key is there, with [None]. *)
Definition snapshot_unknown_debt : gmap string pyval :=
  list_to_map [ ("current_price", VFloat 100); ("pe_ratio", VFloat 12);
                ("debt_to_equity", VNone) ].

(** The snapshot the retriever builds when the data source reports no
    price: the key is there, with [None]. *)
Definition snapshot_unknown_price : gmap string pyval :=
  list_to_map [ ("current_price", VNone); ("pe_ratio", VFloat 15) ].

(** An [eps] of zero next to an unknown price. *)
Definition zero_eps_unknown_price : gmap string pyval :=
  list_to_map [ ("current_price", VNone); ("pe_ratio", VFloat 15);
                ("eps", VFloat 0) ].

(** An [eps] of zero in a snapshot that has what the PEG valuator tests. *)
Definition zero_eps_peg_snapshot : gmap string pyval :=
  list_to_map [ ("current_price", VFloat 100); ("pe_ratio", VFloat 15);
                ("earnings_growth", VFloat 0.2); ("eps", VFloat 0) ].

(** Snapshots in which one input of the PEG or P/E valuator is zero. *)
Definition zero_pe_snapshot : gmap string pyval :=
  list_to_map [ ("current_price", VFloat 100); ("pe_ratio", VInt 0);
                ("earnings_growth", VFloat 0.2) ].

Definition zero_growth_snapshot : gmap string pyval :=
  list_to_map [ ("current_price", VFloat 100); ("pe_ratio", VFloat 15);
                ("earnings_growth", VFloat 0) ].

Definition zero_eps_snapshot : gmap string pyval :=
  list_to_map [ ("current_price", VFloat 100); ("pe_ratio", VFloat 15);
                ("eps", VFloat 0) ].

(** A company in debt, for which no share count is known but zero. *)
Definition indebted_snapshot : gmap string pyval :=
  list_to_map [ ("free_cash_flow", VFloat 100); ("total_debt", VFloat 5000);
                ("shares_outstanding", VInt 0) ].

(** A snapshot of a stock priced at 100 in a given sector. *)
Definition sector_snapshot (sector : string) (pe_ratio : Q) : gmap string pyval :=
  list_to_map [ ("current_price", VFloat 100); ("pe_ratio", VFloat pe_ratio);
                ("sector", VStr sector) ].

(** What the retriever stores for one market index. *)
Definition index_reading (change_percent : pyval) : gmap string pyval :=
  list_to_map [ ("current_value", VFloat 5000); ("change_percent", change_percent) ].

(** A validation of [float] fields that accepts the integers and the floats
    as they are and nothing else. *)
Definition validate_number (v : pyval) : option Q :=
  match v with
  | VInt n => Some (inject_Z n)
  | VFloat q => Some q
  | _ => None
  end.

(** A request for the three default methods. *)
Definition example_request : ValuationRequest.t :=
  ValuationRequest.Build_t "AAPL" [DCF; PEG; PE] None.

(** The metrics of a stock at a given price, nothing else known. *)
Definition metrics_at (price : Q) : FinancialMetrics :=
  Build_FinancialMetrics price 0 None None None None None None None.

(** An outcome with a given estimate. *)
Definition outcome (m : ValuationMethod) (value : Q) : ValuationResult :=
  Build_ValuationResult m value (value * 0.8, value * 1.2) [] [].

(** * Properties *)

(** ** Comparisons and division *)

Lemma Qltb_lt (a b : Q) : Qltb a b = true <-> a < b.
Proof.
  unfold Qltb. rewrite negb_true_iff.
  destruct (Qle_bool b a) eqn:E.
  - apply Qle_bool_iff in E. split; [discriminate | lra].
  - split; [intros _ | reflexivity].
    destruct (Qlt_le_dec a b) as [Hlt | Hle]; [exact Hlt |].
    apply Qle_bool_iff in Hle. congruence.
Qed.

Lemma Qltb_ge (a b : Q) : Qltb a b = false <-> b <= a.
Proof.
  rewrite <- not_true_iff_false, Qltb_lt. split; lra.
Qed.

Lemma Qltb_dec (a b : Q) :
  Qltb a b = if Qlt_le_dec a b then true else false.
Proof.
  destruct (Qlt_le_dec a b) as [H | H].
  - apply Qltb_lt, H.
  - apply Qltb_ge, H.
Qed.

Lemma Qeq_bool_false (a b : Q) : Qeq_bool a b = false <-> ~ a == b.
Proof.
  rewrite <- not_true_iff_false, Qeq_bool_iff. reflexivity.
Qed.

Lemma py_div_ok (a b : Q) : ~ b == 0 -> py_div a b = Ok (a / b).
Proof.
  intros H. unfold py_div. apply Qeq_bool_false in H. rewrite H. reflexivity.
Qed.


Lemma dict_get_some (d : gmap string pyval) (k : string) (dflt v : pyval) :
  d !! k = Some v -> dict_get d k dflt = v.
Proof. intros H. unfold dict_get. rewrite H. reflexivity. Qed.

Lemma dict_get_none (d : gmap string pyval) (k : string) (dflt : pyval) :
  d !! k = None -> dict_get d k dflt = dflt.
Proof. intros H. unfold dict_get. rewrite H. reflexivity. Qed.

(** ** Terminal value *)




(** ** Projection *)


Lemma seqZ_nonpos (m n : Z) : (n <= 0)%Z -> seqZ m n = [].
Proof.
  intros H. unfold seqZ. replace (Z.to_nat n) with 0%nat by lia. reflexivity.
Qed.

(** With no year to project, nothing is computed and nothing can fail. *)
Lemma project_cash_flows_nonpos (initial_fcf growth_rate : pyval) (n : Z) :
  (n <= 0)%Z -> _project_cash_flows initial_fcf growth_rate (VInt n) = Ok [].
Proof.
  intros H. unfold _project_cash_flows. cbn [as_int mbind result_bind].
  rewrite seqZ_nonpos by exact H. reflexivity.
Qed.


(** ** DCF and the free-cash-flow field *)





(** ** Assumption overrides *)

(** C8, as stated, fails: a negative [projection_years] is not rejected, the
    projection runs (over no year) and the failure is the [IndexError] of
    [projected_cash_flows[-1]]; a negative [discount_rate] is used as it is
    and the valuator returns. *)
Lemma dcf_overrides_not_validated :
  _project_cash_flows (VFloat 100) (VFloat 0.05) (VInt (-1)) = Ok []
  /\ dcf_valuation example_snapshot ∅ (Some {[ "projection_years" := VInt (-1) ]})
     = Raise IndexError
  /\ is_ok (dcf_valuation example_snapshot ∅
              (Some {[ "discount_rate" := VFloat (-0.5) ]})) = true.
Proof. repeat split; vm_compute; reflexivity. Qed.

(** C8, amended: a [projection_years] that is zero or negative is not
    rejected at the boundary of the valuator: the projection runs and returns
    the empty list, the DCF valuator raises [IndexError] on its last element,
    and the loop of the request handler drops the method, as for any other
    exception. *)
Theorem dcf_nonpositive_years
  (stock_data market_context : gmap string pyval)
  (assumptions : option (gmap string pyval)) (n : Z) :
  assumption assumptions "projection_years" (VInt 5) = VInt n ->
  (n <= 0)%Z ->
  dcf_valuation stock_data market_context assumptions = Raise IndexError
  /\ perform_valuations [DCF] stock_data market_context assumptions = [].
Proof.
  intros Hy Hn.
  assert (E : dcf_valuation stock_data market_context assumptions = Raise IndexError).
  { unfold dcf_valuation. cbv zeta. rewrite Hy.
    rewrite project_cash_flows_nonpos by exact Hn. reflexivity. }
  split; [exact E |].
  unfold perform_valuations. cbn [fold_left].
  unfold valuation_step. cbn [perform_single_valuation]. rewrite E. reflexivity.
Qed.

Lemma dcf_nonpositive_years_witness :
  dcf_valuation example_snapshot ∅ (Some {[ "projection_years" := VInt (-1) ]})
  = Raise IndexError
  /\ perform_valuations [DCF] example_snapshot ∅
       (Some {[ "projection_years" := VInt (-1) ]}) = [].
Proof.
  apply (dcf_nonpositive_years example_snapshot ∅
           (Some {[ "projection_years" := VInt (-1) ]}) (-1)).
  - reflexivity.
  - lia.
Defined.

(** ** The loop of the request handler *)

Lemma bind_ok_inv {A B : Type} (r : result A) (k : A -> result B) (b : B) :
  r ≫= k = Ok b -> exists a, r = Ok a /\ k a = Ok b.
Proof.
  destruct r as [a | e]; cbn; [eauto | discriminate].
Qed.

(** Peels the binds of a computation known to have returned. *)
Ltac bind_inv H :=
  repeat
    (let x := fresh "x" in
     let E := fresh "E" in
     apply bind_ok_inv in H; destruct H as (x & E & H)).

Lemma dcf_method sd mc a v : dcf_valuation sd mc a = Ok v -> method v = DCF.
Proof.
  unfold dcf_valuation. cbv zeta. intros H. bind_inv H.
  injection H as <-. reflexivity.
Qed.

Lemma peg_method sd mc a v : peg_valuation sd mc a = Ok v -> method v = PEG.
Proof.
  unfold peg_valuation. cbv zeta. intros H.
  destruct (_ || _); [discriminate |]. bind_inv H.
  injection H as <-. reflexivity.
Qed.

Lemma pe_method sd mc a v : pe_valuation sd mc a = Ok v -> method v = PE.
Proof.
  unfold pe_valuation. cbv zeta. intros H.
  apply bind_ok_inv in H. destruct H as (d & _ & H).
  destruct (_ || _); [discriminate |]. bind_inv H.
  injection H as <-. reflexivity.
Qed.

Lemma comparative_method sd mc a v :
  comparative_valuation sd mc a = Ok v -> method v = COMPARATIVE.
Proof.
  unfold comparative_valuation. cbv zeta. intros H. bind_inv H.
  injection H as <-. reflexivity.
Qed.

Lemma single_valuation_method m sd mc a v :
  perform_single_valuation m sd mc a = Ok v -> method v = m.
Proof.
  destruct m; cbn [perform_single_valuation];
    eauto using dcf_method, peg_method, pe_method, comparative_method.
Qed.

Lemma fold_valuation_step sd mc a methods acc :
  fold_left (valuation_step sd mc a) methods acc
  = acc ++ omap (fun m => outcome_of (perform_single_valuation m sd mc a)) methods.
Proof.
  revert acc. induction methods as [| m methods IH]; intros acc; simpl.
  - rewrite app_nil_r. reflexivity.
  - rewrite IH. unfold valuation_step.
    destruct (perform_single_valuation m sd mc a); simpl.
    + rewrite <- app_assoc. reflexivity.
    + reflexivity.
Qed.

Lemma successes_methods sd mc a methods :
  map method (omap (fun m => outcome_of (perform_single_valuation m sd mc a)) methods)
  = List.filter (fun m => is_ok (perform_single_valuation m sd mc a)) methods.
Proof.
  induction methods as [| m methods IH]; [reflexivity |].
  simpl.
  destruct (perform_single_valuation m sd mc a) as [v |] eqn:E; simpl.
  - f_equal; [exact (single_valuation_method _ _ _ _ _ E) | exact IH].
  - exact IH.
Qed.

Lemma peg_needs_earnings_growth sd mc a :
  sd !! "earnings_growth" = None \/ sd !! "earnings_growth" = Some VNone ->
  peg_valuation sd mc a = Raise (ValueError peg_error).
Proof.
  intros H. unfold peg_valuation. cbv zeta.
  assert (E : dict_get sd "earnings_growth" VNone = VNone).
  { destruct H as [H | H];
      [apply dict_get_none, H | apply dict_get_some, H]. }
  rewrite E. cbn [truthy negb]. rewrite orb_true_r. reflexivity.
Qed.

(** C3: the loop never aborts; it returns the outcomes of the requested
    methods that succeeded, in the order of the request, so that the methods
    of the outcomes are the requested methods with the failed ones struck
    out.  A snapshot without [earnings_growth] (the key is missing, or holds
    [None]) on which DCF and P/E succeed, asked for [dcf, peg, pe], yields
    the outcomes of [dcf] and [pe], in that order. *)
Theorem perform_valuations_skips_failures
  (valuation_methods : list ValuationMethod)
  (stock_data market_context : gmap string pyval)
  (assumptions : option (gmap string pyval)) :
  perform_valuations valuation_methods stock_data market_context assumptions
  = omap (fun m => outcome_of
                     (perform_single_valuation m stock_data market_context assumptions))
         valuation_methods
  /\ map method
       (perform_valuations valuation_methods stock_data market_context assumptions)
     = List.filter
         (fun m => is_ok (perform_single_valuation m stock_data market_context assumptions))
         valuation_methods
  /\ (stock_data !! "earnings_growth" = None
      \/ stock_data !! "earnings_growth" = Some VNone ->
      is_ok (dcf_valuation stock_data market_context assumptions) = true ->
      is_ok (pe_valuation stock_data market_context assumptions) = true ->
      map method
        (perform_valuations [DCF; PEG; PE] stock_data market_context assumptions)
      = [DCF; PE]).
Proof.
  assert (E : forall ms,
             perform_valuations ms stock_data market_context assumptions
             = omap (fun m => outcome_of
                       (perform_single_valuation m stock_data market_context assumptions))
                    ms).
  { intros ms. unfold perform_valuations. rewrite fold_valuation_step. reflexivity. }
  split; [apply E |]. split.
  - rewrite E. apply successes_methods.
  - intros Hg Hdcf Hpe. rewrite E, successes_methods.
    cbn [List.filter perform_single_valuation].
    rewrite Hdcf, Hpe, (peg_needs_earnings_growth _ _ _ Hg). reflexivity.
Qed.

Lemma perform_valuations_skips_failures_witness :
  map method (perform_valuations [DCF; PEG; PE] example_snapshot ∅ None)
  = [DCF; PE].
Proof.
  apply (perform_valuations_skips_failures [DCF; PEG; PE] example_snapshot ∅ None).
  - left. reflexivity.
  - reflexivity.
  - reflexivity.
Defined.

(** ** Recommendation *)


(** The thresholds at a current price of 100. *)
Example recommendation_thresholds :
  let metrics := metrics_at 100 in
  generate_recommendation [outcome DCF 120; outcome PE 130] metrics = Ok strong_buy
  /\ generate_recommendation [outcome DCF 110] metrics = Ok buy
  /\ generate_recommendation [outcome DCF 100; outcome PEG 104] metrics
     = Ok hold_fair_value
  /\ generate_recommendation [outcome DCF 90] metrics = Ok hold_slight_downside
  /\ generate_recommendation [outcome DCF 70] metrics = Ok sell
  /\ generate_recommendation [] metrics = Ok insufficient_data.
Proof. repeat split; reflexivity. Qed.

(** ** Confidence intervals *)

Lemma py_div_ok_inv (a b q : Q) : py_div a b = Ok q -> ~ b == 0 /\ q = a / b.
Proof.
  unfold py_div. destruct (Qeq_bool b 0) eqn:E; [discriminate |].
  intros H. injection H as <-. split; [apply Qeq_bool_false, E | reflexivity].
Qed.







(** C5 fails on the code: a company that burns cash gets a negative DCF
    estimate, and the pair [(estimate * 0.8, estimate * 1.2)] then has its
    first component above its second. *)
Theorem dcf_negative_estimate_inverts_interval :
  exists v, dcf_valuation negative_fcf_snapshot ∅ None = Ok v
            /\ estimated_value v < 0
            /\ snd (confidence_interval v) < fst (confidence_interval v).
Proof.
  eexists. split; [vm_compute; reflexivity |].
  split; reflexivity.
Qed.



Example peg_interval_examples :
  _calculate_peg_confidence_interval 100 1.15 = (100 * (1 - 0.1), 100 * (1 + 0.1))
  /\ _calculate_peg_confidence_interval 100 1.3 = (100 * (1 - 0.2), 100 * (1 + 0.2))
  /\ _calculate_peg_confidence_interval 100 2.0 = (100 * (1 - 0.3), 100 * (1 + 0.3)).
Proof. repeat split; reflexivity. Qed.

(** ** Risk factors *)

(** On values that are numbers (or missing, hence 0) the handler returns the
    flags of the rules that fire, in the order of the rules, and the sentinel
    when none fires. *)
Lemma identify_risk_factors_numbers
  (stock_data market_context : gmap string pyval) (d p vol : Q) :
  num (dict_get stock_data "debt_to_equity" (VInt 0)) = Ok d ->
  num (dict_get stock_data "pe_ratio" (VInt 0)) = Ok p ->
  num (dict_get market_context "market_volatility" (VInt 0)) = Ok vol ->
  identify_risk_factors stock_data market_context
  = Ok (match spec_risk_flags d p vol with
        | [] => [no_risk]
        | flags => flags
        end).
Proof.
  intros Hd Hp Hv. unfold identify_risk_factors, py_gt, spec_risk_flags.
  cbv zeta. rewrite Hd, Hp, Hv. cbn [mbind result_bind].
  rewrite !Qltb_dec.
  repeat destruct (Qlt_le_dec _ _); reflexivity.
Qed.

Example risk_sentinel :
  identify_risk_factors
    (list_to_map [ ("debt_to_equity", VFloat 0.5); ("pe_ratio", VInt 12) ])
    {[ "market_volatility" := VFloat 0.05 ]}
  = Ok [no_risk].
Proof. reflexivity. Qed.

Example risk_all_rules :
  identify_risk_factors
    (list_to_map [ ("debt_to_equity", VFloat 1.5); ("pe_ratio", VInt 45) ])
    {[ "market_volatility" := VFloat 0.4 ]}
  = Ok [high_debt; high_pe; high_volatility].
Proof. reflexivity. Qed.

(** C7 fails on the code: no rule fires on this snapshot, yet the handler
    returns no list at all, [None > 1.0] raises [TypeError]. *)
Theorem identify_risk_factors_none_raises :
  identify_risk_factors snapshot_unknown_debt {[ "market_volatility" := VFloat 0.05 ]}
  = Raise TypeError.
Proof. reflexivity. Qed.

(** ** Zero inputs of the PEG and P/E valuators *)

Lemma zero_falsy (v : pyval) (q : Q) : num v = Ok q -> q == 0 -> truthy v = false.
Proof.
  destruct v as [| b | n | x | s]; cbn [num truthy]; intros H Hq;
    try discriminate; injection H as <-.
  - destruct b; [exfalso; revert Hq; unfold Qeq; simpl; lia | reflexivity].
  - assert (n = 0%Z) as -> by (revert Hq; unfold Qeq; simpl; lia). reflexivity.
  - apply negb_false_iff, Qeq_bool_iff, Hq.
Qed.

Lemma truthy_nonzero (v : pyval) (q : Q) : truthy v = true -> num v = Ok q -> ~ q == 0.
Proof.
  intros Ht Hn Hq. rewrite (zero_falsy _ _ Hn Hq) in Ht. discriminate.
Qed.

Lemma zero_field_falsy d k dflt : zero_field d k -> truthy (dict_get d k dflt) = false.
Proof.
  intros (v & q & Hv & Hn & Hq). rewrite (dict_get_some _ _ _ _ Hv).
  eapply zero_falsy; eauto.
Qed.

Lemma num_raises v e : num v = Raise e -> e = TypeError.
Proof. destruct v; cbn; congruence. Qed.

(** The PEG valuator never divides by zero: both divisors passed the truth
    test. *)
Lemma peg_never_divides_by_zero sd mc a :
  peg_valuation sd mc a <> Raise ZeroDivisionError.
Proof.
  unfold peg_valuation. cbv zeta.
  destruct (truthy (dict_get sd "pe_ratio" VNone)) eqn:Tpe; cbn [negb orb];
    [| discriminate].
  destruct (truthy (dict_get sd "earnings_growth" VNone)) eqn:Teg; cbn [negb];
    [| discriminate].
  destruct (num (dict_get sd "earnings_growth" VNone)) as [eg | e] eqn:Heg;
    cbn [mbind result_bind];
    [| apply num_raises in Heg; subst e; discriminate].
  destruct (num (dict_get sd "pe_ratio" VNone)) as [pe | e] eqn:Hpe;
    cbn [mbind result_bind];
    [| apply num_raises in Hpe; subst e; discriminate].
  pose proof (truthy_nonzero _ _ Tpe Hpe) as Npe.
  pose proof (truthy_nonzero _ _ Teg Heg) as Neg.
  rewrite py_div_ok by lra. cbn [mbind result_bind].
  destruct (num (dict_get sd "current_price" (VInt 0))) as [price | e] eqn:Hpr;
    cbn [mbind result_bind];
    [| apply num_raises in Hpr; subst e; discriminate].
  rewrite py_div_ok by exact Npe. cbn [mbind result_bind].
  destruct (num (dict_get sd "eps" _)) as [eps | e] eqn:Heps;
    cbn [mbind result_bind];
    [discriminate | apply num_raises in Heps; subst e; discriminate].
Qed.

(** C9, as stated, fails for the EPS field.  The PEG valuator does not test
    [eps]: an [eps] of zero is used, and the estimate is zero.  The P/E
    valuator evaluates the default [current_price / pe_ratio] before it
    tests [eps]: next to an unknown price the exception is the [TypeError]
    of that division, not the missing-input [ValueError]. *)
Lemma zero_eps_not_missing_input :
  (exists v, peg_valuation zero_eps_peg_snapshot ∅ None = Ok v
             /\ estimated_value v == 0)
  /\ pe_valuation zero_eps_unknown_price ∅ None = Raise TypeError.
Proof.
  split; [| reflexivity].
  eexists. split; [vm_compute; reflexivity | reflexivity].
Qed.

(** C9, amended: a [pe_ratio] or [earnings_growth] that is present and zero
    makes the PEG valuator raise its missing-input [ValueError], and a
    [pe_ratio] that is present and zero makes the P/E valuator raise its own,
    so that the PEG division never meets a zero divisor.  An [eps] that is
    present and zero never yields a P/E outcome; the exception is the
    missing-input [ValueError] when the default [current_price / pe_ratio],
    which is evaluated before the test, can be computed: on a
    [current_price] that is a number (or missing) and a [pe_ratio] that is a
    number or [None]. *)
Theorem zero_inputs_raise_missing_input
  (stock_data market_context : gmap string pyval)
  (assumptions : option (gmap string pyval)) :
  (zero_field stock_data "pe_ratio" \/ zero_field stock_data "earnings_growth" ->
   peg_valuation stock_data market_context assumptions
   = Raise (ValueError peg_error))
  /\ (zero_field stock_data "pe_ratio" ->
      pe_valuation stock_data market_context assumptions
      = Raise (ValueError pe_error))
  /\ (zero_field stock_data "eps" ->
      is_ok (pe_valuation stock_data market_context assumptions) = false)
  /\ (zero_field stock_data "eps" ->
      number (dict_get stock_data "current_price" (VInt 0)) ->
      dict_get stock_data "pe_ratio" VNone = VNone
      \/ number (dict_get stock_data "pe_ratio" VNone) ->
      pe_valuation stock_data market_context assumptions
      = Raise (ValueError pe_error))
  /\ peg_valuation stock_data market_context assumptions
     <> Raise ZeroDivisionError.
Proof.
  repeat split.
  - intros [Z | Z]; unfold peg_valuation; cbv zeta;
      rewrite (zero_field_falsy _ _ _ Z); cbn [negb orb].
    + reflexivity.
    + rewrite orb_true_r. reflexivity.
  - intros Z. unfold pe_valuation. cbv zeta.
    rewrite (zero_field_falsy _ _ _ Z). reflexivity.
  - intros Z. unfold pe_valuation. cbv zeta.
    destruct (if truthy (dict_get stock_data "pe_ratio" VNone) then _ else _)
      as [d | e]; cbn [mbind result_bind]; [| reflexivity].
    rewrite (zero_field_falsy _ _ _ Z). cbn [negb]. rewrite orb_true_r.
    reflexivity.
  - intros Z Hprice Hpe. unfold pe_valuation. cbv zeta.
    assert (D : exists d,
               (if truthy (dict_get stock_data "pe_ratio" VNone)
                then price ← num (dict_get stock_data "current_price" (VInt 0));
                     pe ← num (dict_get stock_data "pe_ratio" VNone);
                     q ← py_div price pe; Ok (VFloat q)
                else Ok (VInt 0)) = Ok d).
    { destruct (truthy (dict_get stock_data "pe_ratio" VNone)) eqn:T; [| eauto].
      unfold number in Hprice.
      destruct (num (dict_get stock_data "current_price" (VInt 0))) as [price |];
        [| discriminate].
      destruct Hpe as [Hpe | Hpe]; [rewrite Hpe in T; discriminate |].
      unfold number in Hpe.
      destruct (num (dict_get stock_data "pe_ratio" VNone)) as [pe |] eqn:Npe;
        [| discriminate].
      cbn [mbind result_bind].
      rewrite py_div_ok by exact (truthy_nonzero _ _ T Npe). eauto. }
    destruct D as [d ->]. cbn [mbind result_bind].
    rewrite (zero_field_falsy _ _ _ Z). cbn [negb]. rewrite orb_true_r.
    reflexivity.
  - apply peg_never_divides_by_zero.
Qed.

Lemma zero_inputs_raise_missing_input_witness :
  peg_valuation zero_pe_snapshot ∅ None = Raise (ValueError peg_error)
  /\ peg_valuation zero_growth_snapshot ∅ None = Raise (ValueError peg_error)
  /\ pe_valuation zero_pe_snapshot ∅ None = Raise (ValueError pe_error)
  /\ is_ok (pe_valuation zero_eps_snapshot ∅ None) = false
  /\ pe_valuation zero_eps_snapshot ∅ None = Raise (ValueError pe_error).
Proof.
  split; [| split; [| split; [| split]]].
  - apply (proj1 (zero_inputs_raise_missing_input zero_pe_snapshot ∅ None)).
    left. exists (VInt 0), 0. repeat split; reflexivity.
  - apply (proj1 (zero_inputs_raise_missing_input zero_growth_snapshot ∅ None)).
    right. exists (VFloat 0), 0. repeat split; reflexivity.
  - apply (proj1 (proj2 (zero_inputs_raise_missing_input zero_pe_snapshot ∅ None))).
    exists (VInt 0), 0. repeat split; reflexivity.
  - apply (proj1 (proj2 (proj2
             (zero_inputs_raise_missing_input zero_eps_snapshot ∅ None)))).
    exists (VFloat 0), 0. repeat split; reflexivity.
  - apply (proj1 (proj2 (proj2 (proj2
             (zero_inputs_raise_missing_input zero_eps_snapshot ∅ None))))).
    + exists (VFloat 0), 0. repeat split; reflexivity.
    + reflexivity.
    + right. reflexivity.
Defined.

(** ** Comparative valuation *)

(** C10, as stated, fails: the valuator is not total.  On the snapshot of a
    stock whose price is unknown, [None * 1.1] raises [TypeError]. *)
Lemma comparative_valuation_unknown_price_raises :
  comparative_valuation snapshot_unknown_price ∅ None = Raise TypeError.
Proof. reflexivity. Qed.

(** C10, amended: the comparative valuator returns on every snapshot whose
    [current_price] is missing or a number: without the key it values the
    stock at [0 * 1.1], with both bounds of the interval at zero, and with a
    number at [current_price * 1.1], with the interval
    [(estimate * 0.8, estimate * 1.2)].  On a stored value that is not a
    number it raises [TypeError]. *)
Theorem comparative_valuation_cases
  (stock_data market_context : gmap string pyval)
  (assumptions : option (gmap string pyval)) :
  (stock_data !! "current_price" = None ->
   exists v, comparative_valuation stock_data market_context assumptions = Ok v
             /\ method v = COMPARATIVE
             /\ estimated_value v = 0 * 1.1
             /\ estimated_value v == 0
             /\ fst (confidence_interval v) == 0
             /\ snd (confidence_interval v) == 0)
  /\ (forall x price,
        stock_data !! "current_price" = Some x ->
        num x = Ok price ->
        exists v, comparative_valuation stock_data market_context assumptions = Ok v
                  /\ method v = COMPARATIVE
                  /\ estimated_value v = price * 1.1
                  /\ confidence_interval v
                     = (estimated_value v * 0.8, estimated_value v * 1.2))
  /\ (forall x,
        stock_data !! "current_price" = Some x ->
        is_ok (num x) = false ->
        comparative_valuation stock_data market_context assumptions
        = Raise TypeError).
Proof.
  split; [| split].
  - intros H. unfold comparative_valuation. cbv zeta.
    rewrite (dict_get_none _ _ _ H). cbn [num mbind result_bind].
    eexists. split; [reflexivity |]. cbn. repeat split; reflexivity.
  - intros x price H Hn. unfold comparative_valuation. cbv zeta.
    rewrite (dict_get_some _ _ _ _ H), Hn. cbn [mbind result_bind].
    eexists. split; [reflexivity |]. cbn. repeat split; reflexivity.
  - intros x H Hn. unfold comparative_valuation. cbv zeta.
    rewrite (dict_get_some _ _ _ _ H).
    destruct (num x) as [q | e] eqn:E; [discriminate |].
    apply num_raises in E. subst e. reflexivity.
Qed.

Lemma comparative_valuation_cases_witness :
  (exists v, comparative_valuation ∅ ∅ None = Ok v
             /\ method v = COMPARATIVE
             /\ estimated_value v = 0 * 1.1
             /\ estimated_value v == 0
             /\ fst (confidence_interval v) == 0
             /\ snd (confidence_interval v) == 0)
  /\ (exists v, comparative_valuation example_snapshot ∅ None = Ok v
                /\ method v = COMPARATIVE
                /\ estimated_value v = 100 * 1.1
                /\ confidence_interval v
                   = (estimated_value v * 0.8, estimated_value v * 1.2))
  /\ comparative_valuation snapshot_unknown_price ∅ None = Raise TypeError.
Proof.
  split; [| split].
  - apply (proj1 (comparative_valuation_cases ∅ ∅ None)). reflexivity.
  - apply (proj1 (proj2 (comparative_valuation_cases example_snapshot ∅ None))
             (VFloat 100) 100); reflexivity.
  - apply (proj2 (proj2 (comparative_valuation_cases snapshot_unknown_price ∅ None))
             VNone); reflexivity.
Defined.

(** * Further properties of the engine and of the request handler *)

(** ** Projection and discounting *)

Lemma py_map_total {A B : Type} (f : A -> result B) (h : A -> B) (l : list A) :
  (forall x, f x = Ok (h x)) -> py_map f l = Ok (map h l).
Proof.
  intros H. induction l as [| x l IH]; [reflexivity |].
  cbn [py_map map]. rewrite H, IH. reflexivity.
Qed.










(** ** The DCF valuator *)

Lemma project_cash_flows_numbers
  (initial_fcf growth_rate : pyval) (f g : Q) (n : Z) :
  num initial_fcf = Ok f ->
  num growth_rate = Ok g ->
  _project_cash_flows initial_fcf growth_rate (VInt n)
  = Ok (map (fun year : Z => f * (1 + g) ^ year) (seqZ 1 n)).
Proof.
  intros Hf Hg. unfold _project_cash_flows. cbn [as_int mbind result_bind].
  apply py_map_total. intros year. rewrite Hg, Hf. reflexivity.
Qed.





(** X5: the audit trail of a DCF outcome is consistent with its estimate:
    the recorded equity value is the recorded enterprise value minus the debt
    plus the cash, the estimate is the equity value divided by the number of
    shares when that number is positive and the equity value itself
    otherwise, unclamped, and the interval is 80% and 120% of the estimate. *)
Theorem dcf_audit_trail
  (stock_data market_context : gmap string pyval)
  (assumptions : option (gmap string pyval)) (v : ValuationResult) :
  dcf_valuation stock_data market_context assumptions = Ok v ->
  exists enterprise debt cash shares,
    num (dict_get stock_data "total_debt" (VInt 0)) = Ok debt
    /\ num (dict_get stock_data "total_cash" (VInt 0)) = Ok cash
    /\ num (dict_get stock_data "shares_outstanding" (VInt 1)) = Ok shares
    /\ detail_of "enterprise_value" (calculation_details v) = Some (DNum enterprise)
    /\ detail_of "equity_value" (calculation_details v)
       = Some (DNum (enterprise - debt + cash))
    /\ (0 < shares -> estimated_value v = (enterprise - debt + cash) / shares)
    /\ (shares <= 0 -> estimated_value v = enterprise - debt + cash)
    /\ confidence_interval v = (estimated_value v * 0.8, estimated_value v * 1.2).
Proof.
  unfold dcf_valuation. cbv zeta. intros H.
  do 7 (apply bind_ok_inv in H; destruct H as (? & _ & H)).
  apply bind_ok_inv in H. destruct H as (debt & Hd & H).
  apply bind_ok_inv in H. destruct H as (cash & Hc & H).
  apply bind_ok_inv in H. destruct H as (shares & Hs & H).
  injection H as <-.
  eexists _, debt, cash, shares.
  repeat (split; [first [exact Hd | exact Hc | exact Hs | reflexivity] |]).
  cbn [estimated_value confidence_interval]. rewrite Qltb_dec.
  split; [| split].
  - intros Hpos. destruct (Qlt_le_dec 0 shares); [reflexivity | lra].
  - intros Hle. destruct (Qlt_le_dec 0 shares); [lra | reflexivity].
  - reflexivity.
Qed.

Lemma dcf_audit_trail_witness :
  exists v,
    dcf_valuation indebted_snapshot ∅ None = Ok v
    /\ exists enterprise debt cash shares,
         num (dict_get indebted_snapshot "total_debt" (VInt 0)) = Ok debt
         /\ num (dict_get indebted_snapshot "total_cash" (VInt 0)) = Ok cash
         /\ num (dict_get indebted_snapshot "shares_outstanding" (VInt 1)) = Ok shares
         /\ detail_of "enterprise_value" (calculation_details v) = Some (DNum enterprise)
         /\ detail_of "equity_value" (calculation_details v)
            = Some (DNum (enterprise - debt + cash))
         /\ (0 < shares -> estimated_value v = (enterprise - debt + cash) / shares)
         /\ (shares <= 0 -> estimated_value v = enterprise - debt + cash)
         /\ confidence_interval v = (estimated_value v * 0.8, estimated_value v * 1.2).
Proof.
  eexists. split; [vm_compute; reflexivity |].
  apply (dcf_audit_trail indebted_snapshot ∅ None). reflexivity.
Defined.

(** ** The PEG and P/E valuators *)

Lemma peg_valuation_inv sd mc a v :
  peg_valuation sd mc a = Ok v ->
  exists pe eg price eps,
    num (dict_get sd "pe_ratio" VNone) = Ok pe
    /\ num (dict_get sd "earnings_growth" VNone) = Ok eg
    /\ ~ pe == 0 /\ ~ eg == 0
    /\ num (dict_get sd "current_price" (VInt 0)) = Ok price
    /\ num (dict_get sd "eps" (VFloat (price / pe))) = Ok eps
    /\ estimated_value v = eg * 100 * eps.
Proof.
  unfold peg_valuation. cbv zeta. intros H.
  destruct (truthy (dict_get sd "pe_ratio" VNone)) eqn:Tpe; [| discriminate].
  destruct (truthy (dict_get sd "earnings_growth" VNone)) eqn:Teg; [| discriminate].
  cbn [negb orb] in H.
  apply bind_ok_inv in H. destruct H as (eg & Heg & H).
  apply bind_ok_inv in H. destruct H as (pe & Hpe & H).
  apply bind_ok_inv in H. destruct H as (peg & _ & H).
  apply bind_ok_inv in H. destruct H as (price & Hprice & H).
  apply bind_ok_inv in H. destruct H as (derived & Hder & H).
  apply bind_ok_inv in H. destruct H as (eps & Heps & H).
  injection H as <-.
  apply py_div_ok_inv in Hder. destruct Hder as [_ ->].
  exists pe, eg, price, eps.
  split; [exact Hpe |]. split; [exact Heg |].
  split; [exact (truthy_nonzero _ _ Tpe Hpe) |].
  split; [exact (truthy_nonzero _ _ Teg Heg) |].
  split; [exact Hprice |]. split; [exact Heps | reflexivity].
Qed.

(** X6: when the snapshot carries no [eps], the estimate of a PEG outcome is
    the current price divided by the PEG ratio
    [pe_ratio / (earnings_growth * 100)] (in the exact arithmetic of the
    model): a stock at a PEG ratio of 1 is valued at its price. *)
Theorem peg_estimate_is_price_over_peg
  (stock_data market_context : gmap string pyval)
  (assumptions : option (gmap string pyval)) (v : ValuationResult)
  (pe eg price : Q) :
  peg_valuation stock_data market_context assumptions = Ok v ->
  stock_data !! "eps" = None ->
  num (dict_get stock_data "pe_ratio" VNone) = Ok pe ->
  num (dict_get stock_data "earnings_growth" VNone) = Ok eg ->
  num (dict_get stock_data "current_price" (VInt 0)) = Ok price ->
  estimated_value v * (pe / (eg * 100)) == price
  /\ (pe / (eg * 100) == 1 -> estimated_value v == price).
Proof.
  intros H Heps Hpe Heg Hprice.
  destruct (peg_valuation_inv _ _ _ _ H)
    as (pe' & eg' & price' & eps & Hpe' & Heg' & Npe & Neg & Hprice' & He & ->).
  rewrite Hpe in Hpe'. rewrite Heg in Heg'. rewrite Hprice in Hprice'.
  injection Hpe' as <-. injection Heg' as <-. injection Hprice' as <-.
  rewrite (dict_get_none _ _ _ Heps) in He. cbn [num] in He. injection He as <-.
  assert (E : eg * 100 * (price / pe) * (pe / (eg * 100)) == price)
    by (field; split; lra).
  split; [exact E |].
  intros Hone. rewrite Hone in E. lra.
Qed.

Lemma peg_estimate_is_price_over_peg_witness :
  exists v, peg_valuation (peg_snapshot 20 0.2) ∅ None = Ok v
            /\ estimated_value v * (20 / (0.2 * 100)) == 100
            /\ (20 / (0.2 * 100) == 1 -> estimated_value v == 100).
Proof.
  eexists. split; [vm_compute; reflexivity |].
  apply (peg_estimate_is_price_over_peg (peg_snapshot 20 0.2) ∅ None _ 20 0.2 100);
    reflexivity.
Defined.

Lemma pe_valuation_inv sd mc a v :
  pe_valuation sd mc a = Ok v ->
  exists pe price eps,
    num (dict_get sd "pe_ratio" VNone) = Ok pe
    /\ ~ pe == 0
    /\ num (dict_get sd "current_price" (VInt 0)) = Ok price
    /\ num (dict_get sd "eps" (VFloat (price / pe))) = Ok eps
    /\ ~ eps == 0
    /\ estimated_value v
       = _get_industry_pe_ratio (dict_get sd "sector" (VStr "")) * eps
    /\ _calculate_pe_confidence_interval (estimated_value v) pe
         (_get_industry_pe_ratio (dict_get sd "sector" (VStr "")))
       = Ok (confidence_interval v).
Proof.
  unfold pe_valuation. cbv zeta. intros H.
  destruct (truthy (dict_get sd "pe_ratio" VNone)) eqn:Tpe.
  - apply bind_ok_inv in H. destruct H as (derived & Hder & H).
    apply bind_ok_inv in Hder. destruct Hder as (price & Hprice & Hder).
    apply bind_ok_inv in Hder. destruct Hder as (pe & Hpe & Hder).
    apply bind_ok_inv in Hder. destruct Hder as (q & Hq & Hder).
    injection Hder as <-.
    apply py_div_ok_inv in Hq. destruct Hq as [Npe ->].
    cbn [negb orb] in H.
    destruct (truthy (dict_get sd "eps" (VFloat (price / pe)))) eqn:Teps;
      [| discriminate].
    cbn [negb] in H.
    apply bind_ok_inv in H. destruct H as (eps & Heps & H).
    apply bind_ok_inv in H. destruct H as (pe' & Hpe' & H).
    apply bind_ok_inv in H. destruct H as (ci & Hci & H).
    injection H as <-.
    rewrite Hpe in Hpe'. injection Hpe' as <-.
    exists pe, price, eps. cbn [estimated_value confidence_interval].
    split; [exact Hpe |]. split; [exact Npe |]. split; [exact Hprice |].
    split; [exact Heps |]. split; [exact (truthy_nonzero _ _ Teps Heps) |].
    split; [reflexivity | exact Hci].
  - apply bind_ok_inv in H. destruct H as (derived & _ & H).
    cbn [negb orb] in H. discriminate.
Qed.

(** X7: when the snapshot carries no [eps], the estimate of a P/E outcome is
    the current price scaled by the ratio of the industry P/E to the P/E of
    the stock (in the exact arithmetic of the model): a stock at the P/E of
    its industry is valued at its price. *)
Theorem pe_estimate_scales_price
  (stock_data market_context : gmap string pyval)
  (assumptions : option (gmap string pyval)) (v : ValuationResult)
  (pe price : Q) :
  pe_valuation stock_data market_context assumptions = Ok v ->
  stock_data !! "eps" = None ->
  num (dict_get stock_data "pe_ratio" VNone) = Ok pe ->
  num (dict_get stock_data "current_price" (VInt 0)) = Ok price ->
  let industry_pe :=
    _get_industry_pe_ratio (dict_get stock_data "sector" (VStr "")) in
  estimated_value v * pe == industry_pe * price
  /\ (pe == industry_pe -> estimated_value v == price).
Proof.
  intros H Heps Hpe Hprice industry_pe.
  destruct (pe_valuation_inv _ _ _ _ H)
    as (pe' & price' & eps & Hpe' & Npe & Hprice' & He & _ & Hest & _).
  rewrite Hpe in Hpe'. rewrite Hprice in Hprice'.
  injection Hpe' as <-. injection Hprice' as <-.
  rewrite (dict_get_none _ _ _ Heps) in He. cbn [num] in He. injection He as <-.
  rewrite Hest. fold industry_pe.
  assert (E : industry_pe * (price / pe) * pe == industry_pe * price)
    by (field; exact Npe).
  split; [exact E |].
  intros Heq.
  assert (E' : pe * (price / pe) == price) by (field; exact Npe).
  rewrite <- Heq. exact E'.
Qed.

Lemma pe_estimate_scales_price_witness :
  exists v, pe_valuation (sector_snapshot "Technology" 25) ∅ None = Ok v
            /\ estimated_value v * 25
               == _get_industry_pe_ratio
                    (dict_get (sector_snapshot "Technology" 25) "sector" (VStr ""))
                  * 100
            /\ (25 == _get_industry_pe_ratio
                        (dict_get (sector_snapshot "Technology" 25) "sector" (VStr ""))
                -> estimated_value v == 100).
Proof.
  eexists. split; [vm_compute; reflexivity |].
  apply (pe_estimate_scales_price (sector_snapshot "Technology" 25) ∅ None _ 25 100);
    reflexivity.
Defined.

(** X8: without [eps] the P/E valuator derives it from the price, so on a
    price that is zero or missing it has no earnings to value: it raises its
    [ValueError], whatever the P/E ratio (a number, or [None]) is. *)
Theorem pe_valuation_needs_price
  (stock_data market_context : gmap string pyval)
  (assumptions : option (gmap string pyval)) (price : Q) :
  stock_data !! "eps" = None ->
  num (dict_get stock_data "current_price" (VInt 0)) = Ok price ->
  price == 0 ->
  dict_get stock_data "pe_ratio" VNone = VNone
  \/ number (dict_get stock_data "pe_ratio" VNone) ->
  pe_valuation stock_data market_context assumptions = Raise (ValueError pe_error).
Proof.
  intros Heps Hprice Hzero Hpe. unfold pe_valuation. cbv zeta.
  destruct (truthy (dict_get stock_data "pe_ratio" VNone)) eqn:T.
  - destruct Hpe as [Hpe | Hpe]; [rewrite Hpe in T; discriminate |].
    unfold number in Hpe.
    destruct (num (dict_get stock_data "pe_ratio" VNone)) as [pe |] eqn:Npe;
      [| discriminate].
    rewrite Hprice. cbn [mbind result_bind].
    rewrite py_div_ok by exact (truthy_nonzero _ _ T Npe).
    cbn [mbind result_bind].
    rewrite (dict_get_none _ _ _ Heps). cbn [truthy negb orb].
    assert (E : Qeq_bool (price / pe) 0 = true).
    { apply Qeq_bool_iff. rewrite Hzero. unfold Qdiv. ring. }
    rewrite E. reflexivity.
  - reflexivity.
Qed.

Lemma pe_valuation_needs_price_witness :
  pe_valuation {[ "pe_ratio" := VFloat 15 ]} ∅ None = Raise (ValueError pe_error).
Proof.
  apply (pe_valuation_needs_price {[ "pe_ratio" := VFloat 15 ]} ∅ None 0).
  - reflexivity.
  - reflexivity.
  - reflexivity.
  - right. reflexivity.
Defined.

Lemma industry_pe_table_bounds :
  map_Forall (fun (_ : string) (q : Q) => 12 <= q /\ q <= 25) industry_pe_ratios.
Proof.
  unfold industry_pe_ratios. cbn [list_to_map foldr fst snd].
  repeat (apply map_Forall_insert_2; [split; unfold Qle; simpl; lia |]).
  apply map_Forall_empty.
Qed.

Lemma industry_pe_bounds (sector : pyval) :
  12 <= _get_industry_pe_ratio sector /\ _get_industry_pe_ratio sector <= 25.
Proof.
  assert (D : 12 <= 18.0 /\ 18.0 <= 25) by (split; unfold Qle; simpl; lia).
  destruct sector as [| b | n | q | s]; cbn [_get_industry_pe_ratio]; try exact D.
  destruct (industry_pe_ratios !! s) as [q |] eqn:E; cbn [default]; [| exact D].
  exact (industry_pe_table_bounds s q E).
Qed.

(** X9: the industry P/E is between 12 and 25 for every sector, known or
    not, so the P/E valuator never divides by zero: the only exceptions it
    raises are its own [ValueError] and the [TypeError] of arithmetic on a
    value that is not a number. *)
Theorem pe_valuation_exceptions
  (stock_data market_context : gmap string pyval)
  (assumptions : option (gmap string pyval)) (sector : pyval) (e : exn) :
  (12 <= _get_industry_pe_ratio sector /\ _get_industry_pe_ratio sector <= 25)
  /\ (pe_valuation stock_data market_context assumptions = Raise e ->
      e = ValueError pe_error \/ e = TypeError).
Proof.
  split; [apply industry_pe_bounds |].
  unfold pe_valuation. cbv zeta.
  pose proof (industry_pe_bounds (dict_get stock_data "sector" (VStr ""))) as [Hlo _].
  set (industry_pe := _get_industry_pe_ratio _) in *.
  destruct (truthy (dict_get stock_data "pe_ratio" VNone)) eqn:Tpe.
  - destruct (num (dict_get stock_data "current_price" (VInt 0))) as [price | e1] eqn:Hprice;
      cbn [mbind result_bind];
      [| apply num_raises in Hprice; subst e1; intros H; injection H as <-; auto].
    destruct (num (dict_get stock_data "pe_ratio" VNone)) as [pe | e1] eqn:Hpe;
      cbn [mbind result_bind];
      [| apply num_raises in Hpe; subst e1; intros H; injection H as <-; auto].
    rewrite py_div_ok by exact (truthy_nonzero _ _ Tpe Hpe).
    cbn [mbind result_bind negb orb].
    destruct (truthy (dict_get stock_data "eps" (VFloat (price / pe)))); cbn [negb];
      [| intros H; injection H as <-; auto].
    destruct (num (dict_get stock_data "eps" (VFloat (price / pe)))) as [eps | e1] eqn:Heps;
      cbn [mbind result_bind];
      [| apply num_raises in Heps; subst e1; intros H; injection H as <-; auto].
    unfold _calculate_pe_confidence_interval.
    rewrite py_div_ok by lra. cbn [mbind result_bind]. discriminate.
  - cbn [mbind result_bind negb orb]. intros H. injection H as <-. auto.
Qed.




Lemma pe_valuation_exceptions_witness :
  ValueError pe_error = ValueError pe_error \/ ValueError pe_error = TypeError.
Proof.
  apply (proj2 (pe_valuation_exceptions ∅ ∅ None VNone (ValueError pe_error))).
  reflexivity.
Defined.

(** ** The request handler *)

Lemma length_omap_le {A B : Type} (f : A -> option B) (l : list A) :
  (length (omap f l) <= length l)%nat.
Proof.
  induction l as [| x l IH]; [reflexivity |].
  change (omap f (x :: l))
    with (match f x with Some y => y :: omap f l | None => omap f l end).
  destruct (f x); cbn [length]; lia.
Qed.

(** X11: the loop treats each requested method on its own: the outcomes of a
    request that is two requests on end are the outcomes of the first
    followed by those of the second, a method requested twice is valued
    twice, and there are never more outcomes than requested methods. *)
Theorem perform_valuations_app
  (methods1 methods2 : list ValuationMethod)
  (stock_data market_context : gmap string pyval)
  (assumptions : option (gmap string pyval)) :
  perform_valuations (methods1 ++ methods2) stock_data market_context assumptions
  = perform_valuations methods1 stock_data market_context assumptions
    ++ perform_valuations methods2 stock_data market_context assumptions
  /\ (length (perform_valuations methods1 stock_data market_context assumptions)
      <= length methods1)%nat.
Proof.
  unfold perform_valuations. rewrite !fold_valuation_step. cbn [app].
  split.
  - apply omap_app.
  - apply length_omap_le.
Qed.

(** X12: whenever the risk rules can be evaluated, the list they return is
    not empty, has at most three entries and no entry twice, and holds the
    sentinel only when it holds nothing else. *)
Theorem identify_risk_factors_invariants
  (stock_data market_context : gmap string pyval) (risk_factors : list string) :
  identify_risk_factors stock_data market_context = Ok risk_factors ->
  risk_factors <> []
  /\ (length risk_factors <= 3)%nat
  /\ NoDup risk_factors
  /\ (In no_risk risk_factors -> risk_factors = [no_risk]).
Proof.
  unfold identify_risk_factors, py_gt. cbv zeta. intros H.
  apply bind_ok_inv in H. destruct H as (c1 & H1 & H).
  apply bind_ok_inv in H1. destruct H1 as (d & _ & H1). cbn beta in H1. injection H1 as <-.
  apply bind_ok_inv in H. destruct H as (c2 & H2 & H).
  apply bind_ok_inv in H2. destruct H2 as (p & _ & H2). cbn beta in H2. injection H2 as <-.
  apply bind_ok_inv in H. destruct H as (c3 & H3 & H).
  apply bind_ok_inv in H3. destruct H3 as (vol & _ & H3). cbn beta in H3. injection H3 as <-.
  cbn beta in H.
  destruct (Qltb 1.0 d), (Qltb 30 p), (Qltb 0.3 vol); cbn [app] in H;
    injection H as <-;
    (split; [discriminate |]);
    (split; [cbn [length]; lia |]);
    (split; [apply (bool_decide_unpack _); vm_compute; exact I |]);
    intros HI; cbn in HI; intuition (first [discriminate | reflexivity]).
Qed.

Lemma identify_risk_factors_invariants_witness :
  [high_debt; high_volatility] <> []
  /\ (length [high_debt; high_volatility] <= 3)%nat
  /\ NoDup [high_debt; high_volatility]
  /\ (In no_risk [high_debt; high_volatility]
      -> [high_debt; high_volatility] = [no_risk]).
Proof.
  apply (identify_risk_factors_invariants
           {[ "debt_to_equity" := VFloat 2 ]}
           {[ "market_volatility" := VFloat 0.5 ]}).
  reflexivity.
Defined.



(** ** The volatility of the market context *)

Lemma py_sum_nonneg_from (l : list Q) (a : Q) :
  0 <= a -> Forall (fun x => 0 <= x) l -> 0 <= fold_left Qplus l a.
Proof.
  intros Ha H. revert a Ha. induction H as [| x l Hx _ IH]; intros a Ha; cbn [fold_left].
  - exact Ha.
  - apply IH. lra.
Qed.

Lemma collect_changes_nonneg (index_values : list (gmap string pyval))
  (acc changes : list Q) :
  collect_changes index_values acc = Ok changes ->
  Forall (fun x => 0 <= x) acc ->
  Forall (fun x => 0 <= x) changes.
Proof.
  revert acc. induction index_values as [| d rest IH]; intros acc H Hacc;
    cbn [collect_changes] in H.
  - injection H as <-. exact Hacc.
  - destruct (truthy (dict_get d "change_percent" VNone)).
    + apply bind_ok_inv in H. destruct H as (x & _ & H).
      apply (IH _ H). apply Forall_app. split; [exact Hacc |].
      constructor; [apply Qabs_nonneg | constructor].
    + exact (IH _ H Hacc).
Qed.

Lemma collect_changes_filter (index_values : list (gmap string pyval)) (acc : list Q) :
  collect_changes index_values acc
  = collect_changes
      (List.filter (fun d => truthy (dict_get d "change_percent" VNone)) index_values)
      acc.
Proof.
  revert acc. induction index_values as [| d rest IH]; intros acc; [reflexivity |].
  cbn [collect_changes List.filter].
  destruct (truthy (dict_get d "change_percent" VNone)) eqn:T.
  - cbn [collect_changes]. rewrite T.
    destruct (num (dict_get d "change_percent" VNone)); cbn [mbind result_bind];
      [apply IH | reflexivity].
  - apply IH.
Qed.

Lemma collect_changes_raises (index_values : list (gmap string pyval))
  (acc : list Q) (d : gmap string pyval) :
  In d index_values ->
  truthy (dict_get d "change_percent" VNone) = true ->
  is_ok (num (dict_get d "change_percent" VNone)) = false ->
  collect_changes index_values acc = Raise TypeError.
Proof.
  revert acc. induction index_values as [| d0 rest IH]; intros acc Hin T Hn;
    [destruct Hin |].
  cbn [collect_changes].
  destruct (truthy (dict_get d0 "change_percent" VNone)) eqn:T0.
  - destruct (num (dict_get d0 "change_percent" VNone)) as [x | e] eqn:E;
      cbn [mbind result_bind].
    + destruct Hin as [-> | Hin]; [rewrite E in Hn; discriminate |].
      apply IH; assumption.
    + apply num_raises in E. subst e. reflexivity.
  - destruct Hin as [-> | Hin]; [rewrite T in T0; discriminate |].
    apply IH; assumption.
Qed.

(** X14: the volatility is never negative; it is [0.0] when no index reports
    a change; and an index whose change is zero, [None] or missing is left
    out of the average, not counted as a zero: the result is that of the
    other indices alone. *)
Theorem market_volatility_average (index_values : list (gmap string pyval)) :
  0 <= _calculate_market_volatility index_values
  /\ (Forall (fun d => truthy (dict_get d "change_percent" VNone) = false)
        index_values ->
      _calculate_market_volatility index_values = 0.0)
  /\ _calculate_market_volatility index_values
     = _calculate_market_volatility
         (List.filter (fun d => truthy (dict_get d "change_percent" VNone))
            index_values).
Proof.
  split; [| split].
  - unfold _calculate_market_volatility.
    destruct (collect_changes index_values []) as [changes | e] eqn:E;
      cbn [mbind result_bind]; [| unfold Qle; simpl; lia].
    pose proof (collect_changes_nonneg _ _ _ E (Forall_nil_2 _)) as Hnn.
    destruct changes as [| x changes]; [unfold Qle; simpl; lia |].
    rewrite py_div_ok by (unfold Qeq; simpl; lia).
    apply Qle_shift_div_l.
    + unfold Qlt. simpl. lia.
    + rewrite Qmult_0_l. apply py_sum_nonneg_from; [lra | exact Hnn].
  - intros H. unfold _calculate_market_volatility.
    assert (E : forall acc, collect_changes index_values acc = Ok acc).
    { induction H as [| d rest Hd _ IH]; intros acc; cbn [collect_changes];
        [reflexivity |].
      rewrite Hd. apply IH. }
    rewrite E. reflexivity.
  - unfold _calculate_market_volatility.
    rewrite <- collect_changes_filter. reflexivity.
Qed.

Lemma market_volatility_average_witness :
  _calculate_market_volatility
    [index_reading VNone; index_reading (VInt 0)] = 0.0.
Proof.
  apply (proj1 (proj2 (market_volatility_average
                         [index_reading VNone; index_reading (VInt 0)]))).
  repeat constructor.
Defined.

(** X15: one reading that is true and not a number spoils the whole
    computation: the exception is swallowed and the volatility is [0.0],
    whatever the other indices report. *)
Theorem market_volatility_swallows_errors
  (index_values : list (gmap string pyval)) (d : gmap string pyval) :
  In d index_values ->
  truthy (dict_get d "change_percent" VNone) = true ->
  is_ok (num (dict_get d "change_percent" VNone)) = false ->
  _calculate_market_volatility index_values = 0.0.
Proof.
  intros Hin T Hn. unfold _calculate_market_volatility.
  rewrite (collect_changes_raises _ _ d Hin T Hn). reflexivity.
Qed.

Lemma market_volatility_swallows_errors_witness :
  _calculate_market_volatility
    [index_reading (VFloat 2.5); index_reading (VStr "n/a")] = 0.0.
Proof.
  apply (market_volatility_swallows_errors _ (index_reading (VStr "n/a"))).
  - right. left. reflexivity.
  - reflexivity.
  - reflexivity.
Defined.

(** ** The endpoint *)

Lemma generate_recommendation_returns
  (valuations : list ValuationResult) (metrics : FinancialMetrics) :
  exists r, generate_recommendation valuations metrics = Ok r
            /\ (r = insufficient_data <-> valuations = []).
Proof.
  destruct valuations as [| v vs].
  - exists insufficient_data. split; [reflexivity | tauto].
  - unfold generate_recommendation.
    rewrite py_div_ok by (cbn [length]; unfold Qeq; simpl; lia).
    cbn [mbind result_bind]. cbv zeta.
    repeat destruct (Qltb _ _); eexists; (split; [reflexivity |]);
      split; intros H; discriminate H.
Qed.

Lemma identify_risk_factors_unknown_ratio
  (stock_data market_context : gmap string pyval) :
  stock_data !! "debt_to_equity" = Some VNone
  \/ stock_data !! "pe_ratio" = Some VNone ->
  identify_risk_factors stock_data market_context = Raise TypeError.
Proof.
  intros H. unfold identify_risk_factors, py_gt. cbv zeta.
  destruct (num (dict_get stock_data "debt_to_equity" (VInt 0))) as [d | e] eqn:Hd;
    cbn [mbind result_bind].
  - destruct H as [H | H].
    + rewrite (dict_get_some _ _ _ _ H) in Hd. discriminate.
    + rewrite (dict_get_some _ _ _ _ H). reflexivity.
  - apply num_raises in Hd. subst e. reflexivity.
Qed.

Section EndpointProperties.

Variable validate_float : pyval -> option Q.

(** X16: the endpoint answers 404 exactly when the retriever returned
    nothing for the symbol, [None] or an empty dictionary. *)
Theorem perform_valuation_not_found
  (request : ValuationRequest.t) (stock_data : option (gmap string pyval))
  (market_context : gmap string pyval) :
  perform_valuation validate_float request stock_data market_context
  = HTTPException 404
  <-> stock_data = None \/ stock_data = Some ∅.
Proof.
  unfold perform_valuation. split.
  - destruct stock_data as [sd |]; [| auto].
    destruct (decide (sd = ∅)) as [-> | _]; [auto |].
    destruct (extract_financial_metrics validate_float sd); [| discriminate].
    cbv zeta. destruct (generate_recommendation _ _); [| discriminate].
    destruct (identify_risk_factors sd market_context); discriminate.
  - intros [-> | ->]; reflexivity.
Qed.

(** X17: a stock whose debt-to-equity ratio or P/E ratio is stored as [None]
    never gets a valuation response: whatever methods are requested and
    whatever they return, the endpoint answers 500. *)
Theorem perform_valuation_unknown_ratio
  (request : ValuationRequest.t)
  (stock_data market_context : gmap string pyval) :
  stock_data !! "debt_to_equity" = Some VNone
  \/ stock_data !! "pe_ratio" = Some VNone ->
  perform_valuation validate_float request (Some stock_data) market_context
  = HTTPException 500.
Proof.
  intros H. unfold perform_valuation.
  destruct (decide (stock_data = ∅)) as [-> | _].
  - destruct H as [H | H]; rewrite lookup_empty in H; discriminate.
  - destruct (extract_financial_metrics validate_float stock_data) as [metrics |];
      [| reflexivity].
    cbv zeta.
    destruct (generate_recommendation _ metrics); [| reflexivity].
    rewrite (identify_risk_factors_unknown_ratio _ _ H). reflexivity.
Qed.

(** X18: a response carries the outcomes of the loop over the requested
    methods, a list of risk factors that is not empty, the price that was
    validated into the metrics and the symbol of the request, and its
    recommendation is the insufficient-data sentence exactly when no method
    returned an outcome. *)
Theorem perform_valuation_response
  (request : ValuationRequest.t) (stock_data : option (gmap string pyval))
  (market_context : gmap string pyval) (r : ValuationResponse.t) :
  perform_valuation validate_float request stock_data market_context = Response r ->
  exists sd,
    stock_data = Some sd
    /\ extract_financial_metrics validate_float sd
       = Some (ValuationResponse.financial_metrics r)
    /\ ValuationResponse.valuations r
       = perform_valuations (ValuationRequest.valuation_methods request) sd
           market_context (ValuationRequest.assumptions request)
    /\ identify_risk_factors sd market_context
       = Ok (ValuationResponse.risk_factors r)
    /\ ValuationResponse.risk_factors r <> []
    /\ (ValuationResponse.recommendation r = insufficient_data
        <-> ValuationResponse.valuations r = [])
    /\ ValuationResponse.current_price r
       = current_price (ValuationResponse.financial_metrics r)
    /\ ValuationResponse.stock_symbol r = ValuationRequest.stock_symbol request.
Proof.
  unfold perform_valuation. intros H.
  destruct stock_data as [sd |]; [| discriminate].
  destruct (decide (sd = ∅)); [discriminate |].
  destruct (extract_financial_metrics validate_float sd) as [metrics |] eqn:Hm;
    [| discriminate].
  cbv zeta in H.
  destruct (generate_recommendation_returns
              (perform_valuations (ValuationRequest.valuation_methods request) sd
                 market_context (ValuationRequest.assumptions request)) metrics)
    as (rec & Hrec & Hiff).
  rewrite Hrec in H.
  destruct (identify_risk_factors sd market_context) as [risk |] eqn:Hrisk;
    [| discriminate].
  injection H as <-. exists sd. cbn.
  split; [reflexivity |]. split; [exact Hm |]. split; [reflexivity |].
  split; [exact Hrisk |]. split.
  - unfold identify_risk_factors, py_gt in Hrisk. cbv zeta in Hrisk.
    apply bind_ok_inv in Hrisk. destruct Hrisk as (c1 & _ & Hrisk).
    apply bind_ok_inv in Hrisk. destruct Hrisk as (c2 & _ & Hrisk).
    apply bind_ok_inv in Hrisk. destruct Hrisk as (c3 & _ & Hrisk).
    cbn beta in Hrisk.
    destruct c1, c2, c3; cbn [app] in Hrisk; injection Hrisk as <-;
      intros Hnil; discriminate Hnil.
  - split; [exact Hiff | split; reflexivity].
Qed.

Hypothesis validate_float_none : validate_float VNone = None.

(** X19: a snapshot whose price is stored as [None] is rejected while the
    metrics are built, before any valuator runs: the endpoint answers 500,
    provided the validation of a [float] field refuses [None]. *)
Theorem perform_valuation_unknown_price
  (request : ValuationRequest.t)
  (stock_data market_context : gmap string pyval) :
  stock_data !! "current_price" = Some VNone ->
  extract_financial_metrics validate_float stock_data = None
  /\ perform_valuation validate_float request (Some stock_data) market_context
     = HTTPException 500.
Proof.
  intros H.
  assert (E : extract_financial_metrics validate_float stock_data = None).
  { unfold extract_financial_metrics.
    rewrite (dict_get_some _ _ _ _ H), validate_float_none. reflexivity. }
  split; [exact E |].
  unfold perform_valuation.
  destruct (decide (stock_data = ∅)) as [-> | _].
  - rewrite lookup_empty in H. discriminate.
  - rewrite E. reflexivity.
Qed.

End EndpointProperties.

Lemma perform_valuation_unknown_ratio_witness :
  perform_valuation validate_number example_request
    (Some snapshot_unknown_debt) {[ "market_volatility" := VFloat 0.05 ]}
  = HTTPException 500.
Proof.
  apply (perform_valuation_unknown_ratio validate_number example_request
           snapshot_unknown_debt {[ "market_volatility" := VFloat 0.05 ]}).
  left. reflexivity.
Defined.

Lemma perform_valuation_response_witness :
  exists r,
    perform_valuation validate_number example_request (Some example_snapshot) ∅
    = Response r
    /\ ValuationResponse.valuations r
       = perform_valuations (ValuationRequest.valuation_methods example_request)
           example_snapshot ∅ (ValuationRequest.assumptions example_request)
    /\ ValuationResponse.risk_factors r <> []
    /\ (ValuationResponse.recommendation r = insufficient_data
        <-> ValuationResponse.valuations r = []).
Proof.
  eexists. split; [vm_compute; reflexivity |].
  match goal with
  | |- ValuationResponse.valuations ?r = _ /\ _ =>
      destruct (perform_valuation_response validate_number example_request
                  (Some example_snapshot) ∅ r)
        as (sd & Hsd & _ & Hv & _ & Hr & Hi & _)
  end.
  - vm_compute. reflexivity.
  - injection Hsd as <-. split; [exact Hv |]. split; [exact Hr | exact Hi].
Defined.

Lemma perform_valuation_unknown_price_witness :
  extract_financial_metrics validate_number snapshot_unknown_price = None
  /\ perform_valuation validate_number example_request
       (Some snapshot_unknown_price) ∅ = HTTPException 500.
Proof.
  apply (perform_valuation_unknown_price validate_number eq_refl example_request
           snapshot_unknown_price ∅).
  reflexivity.
Defined.

(** ** What the valuators read *)

(** X20: a [projection_years] that is not an integer, the float [5.0]
    included, makes the DCF valuator raise [TypeError] before anything is
    computed, whatever the snapshot holds; the loop then drops the method. *)
Theorem dcf_needs_integer_years
  (stock_data market_context : gmap string pyval)
  (assumptions : option (gmap string pyval)) :
  is_ok (as_int (assumption assumptions "projection_years" (VInt 5))) = false ->
  dcf_valuation stock_data market_context assumptions = Raise TypeError
  /\ perform_valuations [DCF] stock_data market_context assumptions = [].
Proof.
  intros H.
  assert (E : dcf_valuation stock_data market_context assumptions = Raise TypeError).
  { unfold dcf_valuation, _project_cash_flows. cbv zeta.
    destruct (assumption assumptions "projection_years" (VInt 5));
      cbn in H; try discriminate; reflexivity. }
  split; [exact E |].
  unfold perform_valuations. cbn [fold_left].
  unfold valuation_step. cbn [perform_single_valuation]. rewrite E. reflexivity.
Qed.

Lemma dcf_needs_integer_years_witness :
  dcf_valuation example_snapshot ∅ (Some {[ "projection_years" := VFloat 5.0 ]})
  = Raise TypeError
  /\ perform_valuations [DCF] example_snapshot ∅
       (Some {[ "projection_years" := VFloat 5.0 ]}) = [].
Proof.
  apply (dcf_needs_integer_years example_snapshot ∅
           (Some {[ "projection_years" := VFloat 5.0 ]})).
  reflexivity.
Defined.

Lemma assumption_insert_other
  (a : gmap string pyval) (k key : string) (v dflt : pyval) :
  k <> key ->
  assumption (Some (<[k := v]> a)) key dflt = assumption (Some a) key dflt.
Proof.
  intros Hne. unfold assumption.
  destruct (decide (<[k := v]> a = ∅)) as [E | _];
    [exfalso; exact (insert_non_empty _ _ _ E) |].
  unfold dict_get. rewrite lookup_insert_ne by exact Hne.
  destruct (decide (a = ∅)) as [-> | _]; [rewrite lookup_empty |]; reflexivity.
Qed.

(** X21: an override under a key other than [growth_rate], [discount_rate],
    [terminal_growth] and [projection_years] changes nothing: it is neither
    rejected nor read.  The PEG, P/E and comparative valuators read no
    override at all, and no valuator reads the market context. *)
Theorem unread_inputs
  (method : ValuationMethod)
  (stock_data market_context market_context' : gmap string pyval)
  (a : gmap string pyval) (assumptions' : option (gmap string pyval))
  (k : string) (v : pyval) :
  (k <> "growth_rate" -> k <> "discount_rate" ->
   k <> "terminal_growth" -> k <> "projection_years" ->
   perform_single_valuation method stock_data market_context (Some (<[k := v]> a))
   = perform_single_valuation method stock_data market_context (Some a))
  /\ (method <> DCF ->
      perform_single_valuation method stock_data market_context (Some a)
      = perform_single_valuation method stock_data market_context assumptions')
  /\ perform_single_valuation method stock_data market_context (Some a)
     = perform_single_valuation method stock_data market_context' (Some a).
Proof.
  split; [| split].
  - intros H1 H2 H3 H4. destruct method; try reflexivity.
    cbn [perform_single_valuation]. unfold dcf_valuation.
    rewrite !assumption_insert_other by assumption. reflexivity.
  - intros H. destruct method; [contradiction | reflexivity ..].
  - destruct method; reflexivity.
Qed.

Lemma unread_inputs_witness :
  perform_single_valuation DCF example_snapshot ∅
    (Some (<["dividend_rate" := VFloat 0.03]> {[ "growth_rate" := VFloat 0.07 ]}))
  = perform_single_valuation DCF example_snapshot ∅
      (Some {[ "growth_rate" := VFloat 0.07 ]})
  /\ perform_single_valuation PE example_snapshot ∅
       (Some {[ "growth_rate" := VFloat 0.07 ]})
     = perform_single_valuation PE example_snapshot ∅ None.
Proof.
  split.
  - apply (proj1 (unread_inputs DCF example_snapshot ∅ ∅
                    {[ "growth_rate" := VFloat 0.07 ]} None
                    "dividend_rate" (VFloat 0.03))); discriminate.
  - apply (proj1 (proj2 (unread_inputs PE example_snapshot ∅ ∅
                           {[ "growth_rate" := VFloat 0.07 ]} None
                           "dividend_rate" (VFloat 0.03)))).
    discriminate.
Defined.

(** ** Estimates and their intervals *)

(** X22: under the default assumptions the DCF valuator returns on every
    snapshot whose inputs are numbers, and its enterprise value is a fixed
    multiple of the free cash flow, about 14.46 times (in the exact
    arithmetic of the model): the estimate is
    [(free_cash_flow * 14.46 - total_debt + total_cash) / shares_outstanding],
    not divided when there is no positive number of shares. *)
Theorem dcf_default_estimate
  (stock_data market_context : gmap string pyval) (f d c s : Q) :
  num (dict_get stock_data "free_cash_flow" (VInt 0)) = Ok f ->
  num (dict_get stock_data "total_debt" (VInt 0)) = Ok d ->
  num (dict_get stock_data "total_cash" (VInt 0)) = Ok c ->
  num (dict_get stock_data "shares_outstanding" (VInt 1)) = Ok s ->
  exists v,
    dcf_valuation stock_data market_context None = Ok v
    /\ estimated_value v
       == (if Qlt_le_dec 0 s
           then (f * default_dcf_multiple - d + c) / s
           else f * default_dcf_multiple - d + c).
Proof.
  intros Hf Hd Hc Hs. unfold dcf_valuation. cbv zeta. cbn [assumption].
  rewrite (project_cash_flows_numbers _ (VFloat 0.05) f 0.05 5 Hf eq_refl).
  change (seqZ 1 5) with [1; 2; 3; 4; 5]%Z.
  cbn [map mbind result_bind py_last last].
  unfold _calculate_terminal_value. cbn [num mbind result_bind].
  rewrite py_div_ok by (unfold Qeq; simpl; lia).
  cbn [mbind result_bind].
  unfold _discount_cash_flows. cbn [discount_from num mbind result_bind].
  repeat (rewrite py_div_ok by (vm_compute; discriminate); cbn [mbind result_bind]).
  cbn [as_int mbind result_bind].
  rewrite Hd, Hc, Hs. cbn [mbind result_bind].
  eexists. split; [reflexivity |]. cbn [estimated_value].
  rewrite Qltb_dec. unfold py_sum. cbn [fold_left].
  change (0 + 1 + 1 + 1 + 1 + 1)%Z with 5%Z.
  change (0 + 1 + 1 + 1 + 1)%Z with 4%Z.
  change (0 + 1 + 1 + 1)%Z with 3%Z.
  change (0 + 1 + 1)%Z with 2%Z.
  change (0 + 1)%Z with 1%Z.
  destruct (Qlt_le_dec 0 s) as [Hpos | Hle]; unfold default_dcf_multiple.
  - field. lra.
  - field.
Qed.

Lemma dcf_default_estimate_witness :
  exists v,
    dcf_valuation example_snapshot ∅ None = Ok v
    /\ estimated_value v
       == (if Qlt_le_dec 0 1
           then (100 * default_dcf_multiple - 0 + 0) / 1
           else 100 * default_dcf_multiple - 0 + 0).
Proof.
  apply (dcf_default_estimate example_snapshot ∅ 100 0 0 1); reflexivity.
Defined.


